(** * Scooter demand model: residual analysis and fitting control flow

    Shallow embedding of [scooter_demand_model.py].

    Numbers.  The program computes with numpy [float64] arrays.  They are
    embedded as real numbers ([R]): arithmetic is exact, and the special
    values of the machine format (NaN, infinities) and its rounding are not
    represented.  Integer columns (the observed counts) are lists of [Z],
    converted with [IZR] where numpy converts them to floating point.

    Libraries.  The operations of numpy and pandas the program relies on
    (broadcasting of one-dimensional arrays, column lookup and assignment)
    are written out with the exceptions they raise.  PyMC's [pm.fit] and the
    [sample] method of the object it returns are parameters of the
    development: they read and advance the state of a random source and
    either return or raise. *)

From Stdlib Require Import Reals Lra ZArith.
From stdpp Require Import base option list gmap strings.

Local Open Scope Z_scope.
Local Open Scope string_scope.

(** ** Exceptions and results *)

(** A raised Python object.  [except Exception] catches the first kind
    only; [KeyboardInterrupt], [SystemExit] and the like derive from
    [BaseException] directly.  [exn_msg] is what [str(e)] prints. *)
Inductive exn : Type :=
| PyException (cls msg : string)
| PyBaseException (cls msg : string).

Definition exn_class (e : exn) : string :=
  match e with PyException c _ | PyBaseException c _ => c end.

Definition exn_msg (e : exn) : string :=
  match e with PyException _ m | PyBaseException _ m => m end.

(** [str] of a [KeyError] is the [repr] of its key, quotes included. *)
Definition KeyError (key : string) : exn :=
  PyException "KeyError" ("'" +:+ key +:+ "'").
Definition ValueError (msg : string) : exn := PyException "ValueError" msg.

Inductive result (A : Type) : Type :=
| Ok (a : A)
| Raise (e : exn).
Arguments Ok {A} a.
Arguments Raise {A} e.

Definition rbind {A B} (r : result A) (k : A -> result B) : result B :=
  match r with
  | Ok a => k a
  | Raise e => Raise e
  end.

Notation "x <-! r ; k" := (rbind r (fun x => k))
  (at level 100, r at next level, right associativity).

(** ** numpy: one-dimensional arrays of floats *)

Abbreviation ndarray := (list R).

(** An elementwise binary operation on two one-dimensional arrays.  Equal
    lengths pair up; an array of length one is stretched to the other
    length; any other pair of shapes is refused. *)
Definition broadcast2 (f : R -> R -> R) (xs ys : ndarray) : result ndarray :=
  if decide (length xs = length ys) then Ok (zip_with f xs ys)
  else match xs, ys with
       | [x], _ => Ok (map (f x) ys)
       | _, [y] => Ok (map (fun x => f x y) xs)
       | _, _ => Raise (ValueError "operands could not be broadcast together")
       end.

(** A zero-dimensional array (a scalar) combined with an array. *)
Definition scale_by (a : R) (xs : ndarray) : ndarray := map (Rmult a) xs.
Definition shift_by (a : R) (xs : ndarray) : ndarray := map (Rplus a) xs.

Definition np_exp (xs : ndarray) : ndarray := map exp xs.

Definition Rsum (xs : list R) : R := foldr Rplus 0%R xs.

(** The mean of the draws of one scalar quantity.  (Over no draws at all
    numpy gives NaN with a warning; [approx.sample(1000)] always draws.) *)
Definition mean (xs : list R) : R := (Rsum xs / INR (length xs))%R.

(** ** pandas: data frames *)

Inductive column : Type :=
| IntCol (l : list Z)
| FloatCol (l : list R).

(** [.values] as floating point. *)
Definition values (c : column) : ndarray :=
  match c with
  | IntCol l => map IZR l
  | FloatCol l => l
  end.

Definition col_length (c : column) : nat :=
  match c with
  | IntCol l => length l
  | FloatCol l => length l
  end.

(** A frame: the row labels in order, and the named columns in order. *)
Record DataFrame : Type := mkDataFrame {
  index : list Z;
  columns : list (string * column)
}.

Definition len (d : DataFrame) : nat := length (index d).

Fixpoint assoc (name : string) (cs : list (string * column)) : option column :=
  match cs with
  | [] => None
  | (k, c) :: cs' => if decide (k = name) then Some c else assoc name cs'
  end.

(** [df[name]]: a missing column is a [KeyError]. *)
Definition getitem (d : DataFrame) (name : string) : result column :=
  match assoc name (columns d) with
  | Some c => Ok c
  | None => Raise (KeyError name)
  end.

(** Replace the column [name] where it stands, or append it. *)
Fixpoint set_assoc (name : string) (c : column) (cs : list (string * column))
  : list (string * column) :=
  match cs with
  | [] => [(name, c)]
  | (k, c0) :: cs' =>
      if decide (k = name) then (k, c) :: cs'
      else (k, c0) :: set_assoc name c cs'
  end.

(** [df[name] = values]: the length must be that of the index. *)
Definition setitem (d : DataFrame) (name : string) (v : ndarray)
  : result DataFrame :=
  if decide (length v = len d)
  then Ok (mkDataFrame (index d) (set_assoc name (FloatCol v) (columns d)))
  else Raise (ValueError "Length of values does not match length of index").

(** A series: the labels of the frame it was taken from, and its values. *)
Record Series : Type := mkSeries {
  s_index : list Z;
  s_values : ndarray
}.

(** [series - array]: numpy computes the difference with broadcasting and
    pandas wraps it with the labels of the series, which refuses a result
    of another length. *)
Definition series_sub (s : Series) (v : ndarray) : result Series :=
  r <-! broadcast2 Rminus (s_values s) v;
  if decide (length r = length (s_index s))
  then Ok (mkSeries (s_index s) r)
  else Raise (ValueError "Length of values does not match length of index").

(** Every column is as long as the index and no name occurs twice. *)
Definition wf_frame (d : DataFrame) : Prop :=
  Forall (fun kc => col_length kc.2 = len d) (columns d) /\
  NoDup (columns d).*1.

(** ** The posterior ensemble *)

(** [trace.posterior]: for each named quantity the draws over the [chain]
    and [draw] dimensions, flattened.  [neigh_eff] has one more dimension:
    it holds one list of draws per component of the random effect. *)
Record Trace : Type := mkTrace {
  alpha : list R;
  beta_infra : list R;
  sigma_neigh : list R;
  neigh_eff : list (list R)
}.

(** ** The Python store *)

Definition loc := positive.

Record World : Type := mkWorld {
  rng : N;                        (* state of the library's random source *)
  stdout : list string;           (* lines printed so far *)
  heap : gmap loc DataFrame       (* the frames, by reference *)
}.

Definition set_rng (s : N) (w : World) : World :=
  mkWorld s (stdout w) (heap w).
Definition set_stdout (o : list string) (w : World) : World :=
  mkWorld (rng w) o (heap w).
Definition set_heap (h : gmap loc DataFrame) (w : World) : World :=
  mkWorld (rng w) (stdout w) h.

(** Computations that read and write the store and may raise. *)
Definition M (A : Type) : Type := World -> result A * World.

Definition ret {A} (a : A) : M A := fun w => (Ok a, w).

Definition bind {A B} (c : M A) (k : A -> M B) : M B :=
  fun w => match c w with
           | (Ok a, w') => k a w'
           | (Raise e, w') => (Raise e, w')
           end.

Notation "x <- c ;; k" := (bind c (fun x => k))
  (at level 100, c at next level, right associativity).
Notation "c ;; k" := (bind c (fun _ => k))
  (at level 100, right associativity).

Definition lift {A} (r : result A) : M A := fun w => (r, w).

Definition print (line : string) : M unit :=
  fun w => (Ok tt, set_stdout (stdout w ++ [line]) w).

(** Dereference a frame.  A reference held by the program always denotes
    an object; the second case is there to make the function total. *)
Definition load (df : loc) : M DataFrame :=
  fun w => match heap w !! df with
           | Some d => (Ok d, w)
           | None => (Raise (PyBaseException "SystemError" "dangling reference"), w)
           end.

(** [df[name]] through a reference. *)
Definition df_getitem (df : loc) (name : string) : M column :=
  d <- load df ;; lift (getitem d name).

(** [df[name] = v] through a reference: the object is updated in place. *)
Definition df_setitem (df : loc) (name : string) (v : ndarray) : M unit :=
  d <- load df ;;
  d' <- lift (setitem d name v) ;;
  fun w => (Ok tt, set_heap (<[df := d']> (heap w)) w).

(** [df[name] = series] for a series that carries the labels of [df]
    itself: the values are taken as they are. *)
Definition df_setitem_series (df : loc) (name : string) (s : Series) : M unit :=
  df_setitem df name (s_values s).

(** ** [calculate_residuals] *)

Definition calculate_residuals (df : loc) (trace : Trace) : M loc :=
  let posterior_neigh_eff := map mean (neigh_eff trace) in
  let posterior_alpha := mean (alpha trace) in
  let posterior_beta_infra := mean (beta_infra trace) in
  infrastructure <- df_getitem df "infrastructure" ;;
  posterior_log_lambda <-
    lift (broadcast2 Rplus
            (shift_by posterior_alpha
               (scale_by posterior_beta_infra (values infrastructure)))
            posterior_neigh_eff) ;;
  let posterior_lambda := np_exp posterior_log_lambda in
  observed_demand <- df_getitem df "observed_demand" ;;
  d <- load df ;;
  residuals <-
    lift (series_sub (mkSeries (index d) (values observed_demand))
            posterior_lambda) ;;
  df_setitem_series df "residuals" residuals ;;
  df_setitem df "predicted_demand" posterior_lambda ;;
  ret df.

(** ** The model declared by [fit_hierarchical_model] *)

(** A tensor expression of the model graph. *)
Inductive tensor : Type :=
| TVar (name : string)
| TData (v : ndarray)
| TAdd (a b : tensor)
| TMul (a b : tensor)
| TExp (a : tensor).

(** The scale of a prior: a number, or another variable of the model. *)
Inductive scale : Type :=
| ScaleConst (s : Z)
| ScaleVar (name : string).

Inductive family : Type := NormalFamily | HalfNormalFamily.

(** A free random variable: [pm.Normal(name, mu, sigma, shape)] or
    [pm.HalfNormal(name, sigma)]; [shape] is [[]] for a scalar. *)
Record Prior : Type := mkPrior {
  p_name : string;
  p_family : family;
  p_mu : Z;
  p_sigma : scale;
  p_shape : list nat
}.

Definition Normal (name : string) (mu : Z) (sigma : scale) (shape : list nat)
  : Prior := mkPrior name NormalFamily mu sigma shape.
Definition HalfNormal (name : string) (sigma : Z) : Prior :=
  mkPrior name HalfNormalFamily 0 (ScaleConst sigma) [].

(** [pm.Poisson(name, mu, observed)]. *)
Record Likelihood : Type := mkPoisson {
  l_name : string;
  l_mu : tensor;
  l_observed : column
}.

Record Model : Type := mkModel {
  free_RVs : list Prior;
  observed_RV : Likelihood
}.

(** The body of [with pm.Model() as model] up to the likelihood. *)
Definition build_model (df : loc) : M Model :=
  d <- load df ;;
  let n_neigh := len d in
  let alpha := Normal "alpha" 0 (ScaleConst 5) [] in
  let beta_infra := Normal "beta_infra" 0 (ScaleConst 3) [] in
  let sigma_neigh := HalfNormal "sigma_neigh" 1 in
  let neigh_eff :=
    Normal "neigh_eff" 0 (ScaleVar (p_name sigma_neigh)) [n_neigh] in
  infrastructure <- df_getitem df "infrastructure" ;;
  let log_lambda :=
    TAdd (TAdd (TVar (p_name alpha))
               (TMul (TVar (p_name beta_infra)) (TData (values infrastructure))))
         (TVar (p_name neigh_eff)) in
  observed_demand <- df_getitem df "observed_demand" ;;
  let demand_obs := mkPoisson "demand_obs" (TExp log_lambda) observed_demand in
  ret (mkModel [alpha; beta_infra; sigma_neigh; neigh_eff] demand_obs).

(** [try: body except Exception as e: handler(e)]. *)
Definition try_except {A} (body : M A) (handler : exn -> M A) : M A :=
  fun w => match body w with
           | (Raise (PyException c m), w') => handler (PyException c m) w'
           | other => other
           end.

(** A library call that draws on the random source. *)
Definition random_call {A} (f : N -> result A * N) : M A :=
  fun w => let '(r, s) := f (rng w) in (r, set_rng s w).

Section Fit.

(** The fitted approximation is an object of the library. *)
Variable Approximation : Type.

(** [pm.fit(method, n)] in the context of a model. *)
Variable pm_fit : string -> Z -> Model -> N -> result Approximation * N.

(** [approx.sample(draws)]. *)
Variable sample : Approximation -> Z -> N -> result Trace * N.

Definition fit_hierarchical_model (df : loc) (n_samples : Z)
  : M (Model * Trace) :=
  model <- build_model df ;;
  approx <-
    try_except
      (print "Attempting Laplace approximation..." ;;
       random_call (pm_fit "laplace" n_samples model))
      (fun e =>
         print ("Laplace method not available (" +:+ exn_msg e +:+
                "), falling back to fullrank_advi") ;;
         random_call (pm_fit "fullrank_advi" n_samples model)) ;;
  trace <- random_call (sample approx 1000) ;;
  ret (model, trace).

End Fit.

(** ** Auxiliary definitions for the statements *)

(** The frame [calculate_residuals] leaves behind. *)
Definition final_frame (d : DataFrame) (res pred : ndarray) : DataFrame :=
  mkDataFrame (index d)
    (set_assoc "predicted_demand" (FloatCol pred)
       (set_assoc "residuals" (FloatCol res) (columns d))).

(** Line 127: the posterior log-rate of every unit. *)
Definition log_lambda_of (trace : Trace) (ci : column) : result ndarray :=
  broadcast2 Rplus
    (shift_by (mean (alpha trace))
       (scale_by (mean (beta_infra trace)) (values ci)))
    (map mean (neigh_eff trace)).

(** The model [build_model] declares for a frame of [n_neigh] rows with
    covariate column [ci] and count column [co]. *)
Definition declared_model (n_neigh : nat) (ci co : column) : Model :=
  mkModel
    [Normal "alpha" 0 (ScaleConst 5) [];
     Normal "beta_infra" 0 (ScaleConst 3) [];
     HalfNormal "sigma_neigh" 1;
     Normal "neigh_eff" 0 (ScaleVar "sigma_neigh") [n_neigh]]
    (mkPoisson "demand_obs"
       (TExp (TAdd (TAdd (TVar "alpha")
                         (TMul (TVar "beta_infra") (TData (values ci))))
                   (TVar "neigh_eff")))
       co).

(** The scale of a prior is positive: a positive number, or a variable of
    the model with a half-normal prior. *)
Definition positive_scale (m : Model) (p : Prior) : Prop :=
  match p_sigma p with
  | ScaleConst s => 0 < s
  | ScaleVar v =>
      exists q, q ∈ free_RVs m /\ p_name q = v /\ p_family q = HalfNormalFamily
  end.

(** What [fit_hierarchical_model] prints before and after a failed Laplace
    attempt whose exception prints as [msg]. *)
Definition fallback_lines (msg : string) : list string :=
  ["Attempting Laplace approximation...";
   "Laplace method not available (" +:+ msg +:+
   "), falling back to fullrank_advi"].



(** ** Sample inputs *)

(** Two neighbourhoods; the first has no infrastructure and no rides. *)
Definition frame_ex : DataFrame :=
  mkDataFrame [0; 1]
    [("neighborhood", IntCol [0; 1]);
     ("x", FloatCol [1; 2]%R);
     ("y", FloatCol [3; 4]%R);
     ("infrastructure", FloatCol [0; 1]%R);
     ("observed_demand", IntCol [0; 3])].

(** The same frame without its covariate column. *)
Definition frame_no_infra : DataFrame :=
  mkDataFrame [0; 1]
    [("neighborhood", IntCol [0; 1]);
     ("observed_demand", IntCol [0; 3])].

(** Three neighbourhoods. *)
Definition frame3 : DataFrame :=
  mkDataFrame [0; 1; 2]
    [("infrastructure", FloatCol [0; 1; 1]%R);
     ("observed_demand", IntCol [0; 3; 5])].

(** Two draws of an ensemble with one random effect per neighbourhood of
    [frame_ex]. *)
Definition trace_ex : Trace :=
  mkTrace [1; 3]%R [2; 2]%R [1; 1]%R [[0; 0]; [1; -1]]%R.

(** An ensemble with a single random-effect component. *)
Definition trace_one : Trace :=
  mkTrace [1; 3]%R [2; 2]%R [1; 1]%R [[0; 0]]%R.

Definition world_of (d : DataFrame) : World :=
  mkWorld 0 [] {[ 1%positive := d ]}.

(** A library whose [pm.fit] knows no method called [laplace]; its
    full-rank fit succeeds and the outcome depends on the random source.
    An approximation is represented by the number of units of the model
    and the state of the random source it was fitted from. *)
Definition stub_fit (method : string) (n : Z) (model : Model) (s : N)
  : result (nat * N) * N :=
  if decide (method = "fullrank_advi")
  then (Ok (col_length (l_observed (observed_RV model)), s), N.succ s)
  else (Raise (ValueError "unknown method laplace"), s).

Definition stub_sample (a : nat * N) (draws : Z) (s : N) : result Trace * N :=
  (Ok (mkTrace [IZR (Z.of_N a.2)] [0%R] [1%R] (replicate a.1 [0%R])),
   N.succ s).

(** A library in which every method fails. *)
Definition failing_fit (method : string) (n : Z) (model : Model) (s : N)
  : result (nat * N) * N :=
  if decide (method = "fullrank_advi")
  then (Raise (PyException "FloatingPointError" "NaN occurred in optimization"), N.succ s)
  else (Raise (ValueError "unknown method laplace"), s).



(** ** Further definitions *)

(** A computation that leaves every frame alone and only adds to what was
    printed. *)
Definition only_prints {A} (c : M A) : Prop :=
  forall w,
    heap (c w).2 = heap w /\ stdout w `prefix_of` stdout (c w).2.

(** A library that implements every method, and one whose Laplace attempt
    is interrupted from the keyboard. *)
Definition working_fit (method : string) (n : Z) (model : Model) (s : N)
  : result (nat * N) * N :=
  (Ok (col_length (l_observed (observed_RV model)), s), N.succ s).

Definition interrupted_fit (method : string) (n : Z) (model : Model) (s : N)
  : result (nat * N) * N :=
  if decide (method = "laplace")
  then (Raise (PyBaseException "KeyboardInterrupt" ""), s)
  else (Ok (col_length (l_observed (observed_RV model)), s), N.succ s).

(** ** [generate_synthetic_data] *)

(** [np.arange(n)] and the default row labels of a frame of [n] rows. *)
Definition arange (n : nat) : list Z := map Z.of_nat (seq 0 n).

(** A [size] argument: numpy refuses a negative dimension. *)
Definition np_size (n : Z) : result nat :=
  if decide (n < 0)
  then Raise (ValueError "negative dimensions are not allowed")
  else Ok (Z.to_nat n).

(** [pd.DataFrame(dict)]: the columns in the order of the dictionary, which
    must all have one length, and the default row labels. *)
Definition pd_DataFrame (cols : list (string * column)) : result DataFrame :=
  match cols with
  | [] => Ok (mkDataFrame [] [])
  | (_, c) :: _ =>
      if decide (Forall (fun kc => col_length kc.2 = col_length c) cols)
      then Ok (mkDataFrame (arange (col_length c)) cols)
      else Raise (ValueError "All arrays must be of the same length")
  end.

Section Synthetic.

(** numpy's global random generator: the state [np.random.seed] installs,
    and the samplers, which read and advance the state. *)
Variable np_seeded : Z -> N.
Variable np_uniform : R -> R -> nat -> N -> list (R * R) * N.
Variable np_beta : R -> R -> nat -> N -> list R * N.
Variable np_normal : R -> R -> nat -> N -> list R * N.
Variable np_poisson : list R -> N -> result (list Z) * N.

(** [np.random.seed(seed)]: the seed must fit in 32 bits. *)
Definition np_random_seed (seed : Z) (s : N) : result unit * N :=
  if decide (0 <= seed < 2 ^ 32)
  then (Ok tt, np_seeded seed)
  else (Raise (ValueError "Seed must be between 0 and 2**32 - 1"), s).

(** The function, as a computation on the state of numpy's generator. *)
Definition generate_synthetic_data (n_neigh seed : Z) (s0 : N)
  : result DataFrame * N :=
  match np_random_seed seed s0 with
  | (Raise e, s) => (Raise e, s)
  | (Ok _, s) =>
    match np_size n_neigh with
    | Raise e => (Raise e, s)
    | Ok size =>
      let '(coords, s) := np_uniform 0 50 size s in
      let '(infra_score, s) := np_beta 2 5 size s in
      let '(true_neigh_effect, s) := np_normal 0 0.5 size s in
      let alpha_true := 1%R in
      let beta_infra_true := 2%R in
      match broadcast2 Rplus
              (shift_by alpha_true (scale_by beta_infra_true infra_score))
              true_neigh_effect with
      | Raise e => (Raise e, s)
      | Ok log_demand =>
        let expected_demand := np_exp log_demand in
        match np_poisson expected_demand s with
        | (Raise e, s) => (Raise e, s)
        | (Ok observed_demand, s) =>
            (pd_DataFrame
               [("neighborhood", IntCol (arange size));
                ("x", FloatCol (map fst coords));
                ("y", FloatCol (map snd coords));
                ("infrastructure", FloatCol infra_score);
                ("observed_demand", IntCol observed_demand)],
             s)
        end
      end
    end
  end.

End Synthetic.

(** Samplers that return the requested number of equal values. *)
Definition const_uniform (lo hi : R) (k : nat) (s : N) : list (R * R) * N :=
  (replicate k (lo, hi), N.succ s).
Definition const_beta (a b : R) (k : nat) (s : N) : list R * N :=
  (replicate k 0%R, N.succ s).
Definition const_normal (mu sigma : R) (k : nat) (s : N) : list R * N :=
  (replicate k mu, N.succ s).
Definition const_poisson (lam : list R) (s : N) : result (list Z) * N :=
  (Ok (map (fun _ => 3) lam), N.succ s).

(** The frame these samplers give for two neighbourhoods. *)
Definition frame_const : DataFrame :=
  mkDataFrame [0; 1]
    [("neighborhood", IntCol [0; 1]);
     ("x", FloatCol [0; 0]%R);
     ("y", FloatCol [50; 50]%R);
     ("infrastructure", FloatCol [0; 0]%R);
     ("observed_demand", IntCol [3; 3])].

(** * Properties *)

(** ** Running the store monad *)

Lemma bind_ok {A B} (c : M A) (k : A -> M B) w a w1 :
  c w = (Ok a, w1) -> bind c k w = k a w1.
Proof. unfold bind. by intros ->. Qed.

Lemma bind_raise {A B} (c : M A) (k : A -> M B) w e w1 :
  c w = (Raise e, w1) -> bind c k w = (Raise e, w1).
Proof. unfold bind. by intros ->. Qed.

Lemma load_some df w d : heap w !! df = Some d -> load df w = (Ok d, w).
Proof. unfold load. by intros ->. Qed.

Lemma df_getitem_run df name w d :
  heap w !! df = Some d -> df_getitem df name w = (getitem d name, w).
Proof.
  intros Hd. unfold df_getitem. by rewrite (bind_ok _ _ _ _ _ (load_some _ _ _ Hd)).
Qed.

Lemma df_setitem_run df name v w d :
  heap w !! df = Some d ->
  df_setitem df name v w =
    match setitem d name v with
    | Ok d' => (Ok tt, set_heap (<[df := d']> (heap w)) w)
    | Raise e => (Raise e, w)
    end.
Proof.
  intros Hd. unfold df_setitem.
  rewrite (bind_ok _ _ _ _ _ (load_some _ _ _ Hd)).
  unfold bind, lift. by destruct (setitem d name v).
Qed.

(** The run of [calculate_residuals] on a live reference, step by step. *)
Lemma calculate_residuals_run df trace w d :
  heap w !! df = Some d ->
  calculate_residuals df trace w =
    match getitem d "infrastructure" with
    | Raise e => (Raise e, w)
    | Ok ci =>
      match log_lambda_of trace ci with
      | Raise e => (Raise e, w)
      | Ok ll =>
        match getitem d "observed_demand" with
        | Raise e => (Raise e, w)
        | Ok co =>
          match series_sub (mkSeries (index d) (values co)) (np_exp ll) with
          | Raise e => (Raise e, w)
          | Ok res =>
            match setitem d "residuals" (s_values res) with
            | Raise e => (Raise e, w)
            | Ok d1 =>
              let w1 := set_heap (<[df := d1]> (heap w)) w in
              match setitem d1 "predicted_demand" (np_exp ll) with
              | Raise e => (Raise e, w1)
              | Ok d2 => (Ok df, set_heap (<[df := d2]> (heap w1)) w1)
              end
            end
          end
        end
      end
    end.
Proof.
  intros Hd. unfold calculate_residuals, log_lambda_of.
  unfold bind at 1. rewrite (df_getitem_run _ _ _ _ Hd).
  destruct (getitem d "infrastructure") as [ci|e]; [|done].
  unfold bind at 1, lift at 1.
  destruct (broadcast2 Rplus _ _) as [ll|e]; [|done].
  unfold bind at 1. rewrite (df_getitem_run _ _ _ _ Hd).
  destruct (getitem d "observed_demand") as [co|e]; [|done].
  unfold bind at 1. rewrite (load_some _ _ _ Hd).
  unfold bind at 1, lift at 1.
  destruct (series_sub _ _) as [res|e]; [|done].
  unfold bind at 1, df_setitem_series. rewrite (df_setitem_run _ _ _ _ _ Hd).
  destruct (setitem d "residuals" (s_values res)) as [d1|e]; [|done].
  unfold bind at 1.
  rewrite (df_setitem_run _ _ _ _ d1) by (cbn; by rewrite lookup_insert_eq).
  by destruct (setitem d1 "predicted_demand" (np_exp ll)).
Qed.

(** ** Columns of a frame *)

Lemma assoc_set_assoc_eq name c cs : assoc name (set_assoc name c cs) = Some c.
Proof.
  induction cs as [|[k c0] cs IH]; cbn.
  - by rewrite decide_True.
  - destruct (decide (k = name)) as [->|Hne]; cbn.
    + by rewrite decide_True.
    + by rewrite decide_False.
Qed.

Lemma assoc_set_assoc_ne name name' c cs :
  name <> name' -> assoc name' (set_assoc name c cs) = assoc name' cs.
Proof.
  intros Hne. induction cs as [|[k c0] cs IH]; cbn.
  - by rewrite decide_False.
  - destruct (decide (k = name)) as [->|Hk]; cbn.
    + by rewrite !decide_False.
    + destruct (decide (k = name')); [done|apply IH].
Qed.

Lemma names_set_assoc name c cs :
  (set_assoc name c cs).*1 =
    if decide (name ∈ cs.*1) then cs.*1 else (cs.*1 ++ [name])%list.
Proof.
  induction cs as [|[k c0] cs IH]; cbn.
  - rewrite decide_False; [done|]. by intros ?%elem_of_nil.
  - destruct (decide (k = name)) as [->|Hk]; cbn.
    + rewrite decide_True; [done|]. by left.
    + rewrite IH. destruct (decide (name ∈ cs.*1)) as [Hin|Hin].
      * rewrite decide_True; [done|]. by right.
      * rewrite decide_False; [done|].
        intros [?|?]%elem_of_cons; by subst.
Qed.

Lemma names_set_assoc_prefix name c cs :
  cs.*1 `prefix_of` (set_assoc name c cs).*1.
Proof.
  rewrite names_set_assoc. destruct (decide _); [done|].
  by exists [name].
Qed.

Lemma getitem_ok d name c :
  getitem d name = Ok c <-> assoc name (columns d) = Some c.
Proof.
  unfold getitem. destruct (assoc name (columns d)); split; congruence.
Qed.

Lemma setitem_ok d name v d' :
  setitem d name v = Ok d' <->
  length v = len d /\
  d' = mkDataFrame (index d) (set_assoc name (FloatCol v) (columns d)).
Proof.
  unfold setitem. destruct (decide _); split; try intros [? ?]; try congruence.
  by intros [= <-].
Qed.

(** ** Broadcasting *)

Lemma lookup_map {A B} (f : A -> B) (l : list A) i :
  map f l !! i = f <$> l !! i.
Proof. revert i. induction l; intros [|i]; cbn; auto. Qed.

Lemma broadcast2_same f xs ys :
  length xs = length ys -> broadcast2 f xs ys = Ok (zip_with f xs ys).
Proof. intros H. unfold broadcast2. by rewrite decide_True. Qed.

Lemma broadcast2_stretch_r f xs y :
  broadcast2 f xs [y] = Ok (map (fun x => f x y) xs).
Proof.
  unfold broadcast2. destruct (decide _) as [Hl|Hl].
  - destruct xs as [|x [|? ?]]; try discriminate. done.
  - destruct xs as [|x [|? ?]]; try done.
Qed.

Lemma broadcast2_refused f xs ys :
  length xs <> length ys -> length xs <> 1%nat -> length ys <> 1%nat ->
  broadcast2 f xs ys =
    Raise (ValueError "operands could not be broadcast together").
Proof.
  intros H H1 H2. unfold broadcast2. rewrite decide_False by done.
  destruct xs as [|x [|? ?]], ys as [|y [|? ?]]; cbn in *; congruence.
Qed.

Lemma broadcast2_length f xs ys r :
  broadcast2 f xs ys = Ok r ->
  (length xs = length ys /\ length r = length ys) \/
  (length xs = 1%nat /\ length r = length ys) \/
  (length ys = 1%nat /\ length r = length xs).
Proof.
  unfold broadcast2. destruct (decide _) as [Hl|Hl].
  - intros [= <-]. left. split; [done|].
    rewrite length_zip_with. lia.
  - destruct xs as [|x [|? ?]], ys as [|y [|? ?]]; cbn in *;
      intros [= <-]; try congruence; cbn; rewrite ?length_map; auto.
Qed.

(** Where both operands have an entry, the result combines them. *)
Lemma broadcast2_lookup f xs ys r i x y :
  broadcast2 f xs ys = Ok r ->
  xs !! i = Some x -> ys !! i = Some y -> r !! i = Some (f x y).
Proof.
  unfold broadcast2. destruct (decide _) as [Hl|Hl].
  - intros [= <-] Hx Hy. rewrite lookup_zip_with, Hx, Hy. done.
  - destruct xs as [|x0 [|x1 xs]].
    + by intros _ ?.
    + intros [= <-] Hx Hy. destruct i; [|done].
      injection Hx as ->. rewrite lookup_map, Hy. done.
    + destruct ys as [|y0 [|y1 ys]]; try discriminate.
      intros [= <-] Hx Hy. destruct i; [|done].
      injection Hy as ->. cbn in Hx |- *. by injection Hx as ->.
Qed.

(** ** Successful runs of [calculate_residuals] *)

Lemma calculate_residuals_inv df trace w df' w' :
  calculate_residuals df trace w = (Ok df', w') ->
  exists d ci co ll res,
    heap w !! df = Some d /\
    assoc "infrastructure" (columns d) = Some ci /\
    assoc "observed_demand" (columns d) = Some co /\
    log_lambda_of trace ci = Ok ll /\
    broadcast2 Rminus (values co) (np_exp ll) = Ok res /\
    length res = len d /\ length ll = len d /\
    df' = df /\
    w' = set_heap (<[df := final_frame d res (np_exp ll)]> (heap w)) w.
Proof.
  destruct (heap w !! df) as [d|] eqn:Hd.
  2:{ unfold calculate_residuals, df_getitem.
      unfold bind at 1 2, load. rewrite Hd. discriminate. }
  rewrite (calculate_residuals_run _ _ _ _ Hd).
  destruct (getitem d "infrastructure") as [ci|] eqn:Hci; [|discriminate].
  destruct (log_lambda_of trace ci) as [ll|] eqn:Hll; [|discriminate].
  destruct (getitem d "observed_demand") as [co|] eqn:Hco; [|discriminate].
  unfold series_sub, rbind; cbn [s_values s_index].
  destruct (broadcast2 Rminus _ _) as [res|] eqn:Hres; [|discriminate].
  destruct (decide (length res = length (index d))) as [Hlen|]; [|discriminate].
  cbn [s_values].
  destruct (setitem d "residuals" res) as [d1|] eqn:H1; [|discriminate].
  apply setitem_ok in H1 as [_ ->].
  cbn zeta.
  destruct (setitem _ "predicted_demand" _) as [d2|] eqn:H2; [|discriminate].
  apply setitem_ok in H2 as [Hl2 ->]. cbn [index columns] in *.
  intros [= <- <-].
  exists d, ci, co, ll, res. repeat split; try done.
  - by apply getitem_ok.
  - by apply getitem_ok.
  - unfold np_exp, len in Hl2. cbn in Hl2. by rewrite length_map in Hl2.
  - unfold set_heap, final_frame; cbn. by rewrite insert_insert_eq.
Qed.

(** ** The frame left behind *)

Lemma final_frame_residuals d res pred :
  assoc "residuals" (columns (final_frame d res pred)) = Some (FloatCol res).
Proof.
  unfold final_frame; cbn [columns].
  rewrite assoc_set_assoc_ne by done. apply assoc_set_assoc_eq.
Qed.

Lemma final_frame_predicted d res pred :
  assoc "predicted_demand" (columns (final_frame d res pred))
  = Some (FloatCol pred).
Proof. unfold final_frame; cbn [columns]. apply assoc_set_assoc_eq. Qed.

Lemma final_frame_other d res pred name :
  name <> "residuals" -> name <> "predicted_demand" ->
  assoc name (columns (final_frame d res pred)) = assoc name (columns d).
Proof.
  intros H1 H2. unfold final_frame; cbn [columns].
  rewrite !assoc_set_assoc_ne; done.
Qed.

Lemma final_frame_names d res pred :
  (columns d).*1 `prefix_of` (columns (final_frame d res pred)).*1.
Proof.
  unfold final_frame; cbn [columns].
  etrans; apply names_set_assoc_prefix.
Qed.

Lemma length_np_exp ll : length (np_exp ll) = length ll.
Proof. unfold np_exp. apply length_map. Qed.


Lemma values_length c : length (values c) = col_length c.
Proof. destruct c; cbn; [apply length_map|done]. Qed.

Lemma assoc_elem name cs c : assoc name cs = Some c -> (name, c) ∈ cs.
Proof.
  induction cs as [|[k c0] cs IH]; cbn; [done|].
  destruct (decide (k = name)) as [->|].
  - intros [= ->]. by left.
  - intros H. right. by apply IH.
Qed.

Lemma wf_frame_column d name c :
  wf_frame d -> assoc name (columns d) = Some c -> length (values c) = len d.
Proof.
  intros [Hall _] Hc%assoc_elem. rewrite values_length.
  rewrite Forall_forall in Hall. by apply (Hall (name, c)).
Qed.

Lemma log_lambda_of_base_length trace ci :
  length (shift_by (mean (alpha trace))
            (scale_by (mean (beta_infra trace)) (values ci)))
  = length (values ci).
Proof. unfold shift_by, scale_by. by rewrite !length_map. Qed.

(** A frame with both columns and an ensemble with one random effect per
    unit, or a single one: the call returns, and this is the store it
    leaves. *)
Lemma calculate_residuals_ok df trace w d ci co :
  heap w !! df = Some d ->
  assoc "infrastructure" (columns d) = Some ci ->
  assoc "observed_demand" (columns d) = Some co ->
  length (values ci) = len d ->
  length (values co) = len d ->
  length (neigh_eff trace) = len d \/ length (neigh_eff trace) = 1%nat ->
  exists ll,
    log_lambda_of trace ci = Ok ll /\ length ll = len d /\
    calculate_residuals df trace w =
      (Ok df,
       set_heap (<[df := final_frame d (zip_with Rminus (values co) (np_exp ll))
                            (np_exp ll)]> (heap w)) w).
Proof.
  intros Hd Hci Hco Hlci Hlco Hm.
  assert (exists ll, log_lambda_of trace ci = Ok ll /\ length ll = len d)
    as (ll & Hll & Hlen).
  { unfold log_lambda_of.
    pose proof (log_lambda_of_base_length trace ci) as Hb.
    destruct (decide (length (neigh_eff trace) = len d)) as [Hmn|Hmn].
    - eexists. split.
      + apply broadcast2_same. rewrite Hb, length_map. congruence.
      + rewrite length_zip_with, Hb, length_map. lia.
    - destruct Hm as [Hm|Hm]; [done|].
      destruct (neigh_eff trace) as [|e [|? ?]]; try discriminate. cbn [map].
      eexists. split; [apply broadcast2_stretch_r|].
      rewrite length_map, Hb. done. }
  exists ll. split; [done|]. split; [done|].
  rewrite (calculate_residuals_run _ _ _ _ Hd).
  apply getitem_ok in Hci, Hco. rewrite Hci, Hll, Hco.
  unfold series_sub, rbind; cbn [s_values s_index].
  rewrite broadcast2_same by (rewrite length_np_exp; congruence).
  rewrite decide_True by (rewrite length_zip_with, length_np_exp; unfold len in *; lia).
  cbn [s_values]. unfold setitem at 1.
  rewrite decide_True by (rewrite length_zip_with, length_np_exp; lia).
  cbn zeta. unfold setitem, len; cbn [index columns heap set_heap].
  rewrite decide_True by (rewrite length_np_exp; done).
  unfold set_heap, final_frame; cbn. by rewrite insert_insert_eq.
Qed.

(** Shapes that neither agree nor stretch are refused before the frame is
    touched. *)
Lemma calculate_residuals_refused df trace w d ci co :
  heap w !! df = Some d ->
  assoc "infrastructure" (columns d) = Some ci ->
  assoc "observed_demand" (columns d) = Some co ->
  length (values ci) = len d ->
  length (values co) = len d ->
  length (neigh_eff trace) <> len d ->
  length (neigh_eff trace) <> 1%nat ->
  exists msg, calculate_residuals df trace w = (Raise (ValueError msg), w).
Proof.
  intros Hd Hci Hco Hlci Hlco Hmn Hm1.
  rewrite (calculate_residuals_run _ _ _ _ Hd).
  apply getitem_ok in Hci, Hco. rewrite Hci.
  pose proof (log_lambda_of_base_length trace ci) as Hb.
  destruct (decide (len d = 1%nat)) as [Hn|Hn].
  - unfold log_lambda_of.
    destruct (shift_by _ _) as [|b [|? ?]] eqn:Hbase; cbn in Hb; try lia.
    unfold broadcast2 at 1. rewrite decide_False by (cbn; rewrite length_map; lia).
    rewrite Hco. unfold series_sub, rbind; cbn [s_values s_index].
    destruct (values co) as [|o [|? ?]] eqn:Hvo; cbn in Hlco; try lia.
    unfold broadcast2. rewrite decide_False
      by (cbn; rewrite length_np_exp, length_map, length_map; lia).
    rewrite decide_False
      by (rewrite length_map, length_np_exp, !length_map; unfold len in Hn; lia).
    by eexists.
  - unfold log_lambda_of. rewrite broadcast2_refused; [by eexists|..].
    + rewrite Hb, length_map. lia.
    + rewrite Hb. lia.
    + by rewrite length_map.
Qed.


Lemma wf_frame_ex : wf_frame frame_ex.
Proof.
  split.
  - repeat constructor.
  - apply (bool_decide_unpack _). vm_compute. exact I.
Qed.

Lemma heap_world_of d : heap (world_of d) !! 1%positive = Some d.
Proof. apply lookup_singleton_eq. Qed.

Lemma heap_set_heap_insert df d w :
  heap (set_heap (<[df := d]> (heap w)) w) !! df = Some d.
Proof. cbn. apply lookup_insert_eq. Qed.





Lemma wf_frame3 : wf_frame frame3.
Proof.
  split.
  - repeat constructor.
  - apply (bool_decide_unpack _). vm_compute. exact I.
Qed.

(** ** Running [fit_hierarchical_model] *)

Lemma print_run line w :
  print line w = (Ok tt, set_stdout (stdout w ++ [line]) w).
Proof. done. Qed.

Lemma random_call_run {A} (f : N -> result A * N) w r s :
  f (rng w) = (r, s) -> random_call f w = (r, set_rng s w).
Proof. unfold random_call. by intros ->. Qed.

Lemma try_except_caught {A} (body : M A) handler w c m w1 :
  body w = (Raise (PyException c m), w1) ->
  try_except body handler w = handler (PyException c m) w1.
Proof. unfold try_except. by intros ->. Qed.

Lemma try_except_ok {A} (body : M A) handler w a w1 :
  body w = (Ok a, w1) -> try_except body handler w = (Ok a, w1).
Proof. unfold try_except. by intros ->. Qed.

Lemma try_except_uncaught {A} (body : M A) handler w c m w1 :
  body w = (Raise (PyBaseException c m), w1) ->
  try_except body handler w = (Raise (PyBaseException c m), w1).
Proof. unfold try_except. by intros ->. Qed.

Lemma build_model_run df w d :
  heap w !! df = Some d ->
  build_model df w =
    match getitem d "infrastructure" with
    | Raise e => (Raise e, w)
    | Ok ci =>
        match getitem d "observed_demand" with
        | Raise e => (Raise e, w)
        | Ok co => (Ok (declared_model (len d) ci co), w)
        end
    end.
Proof.
  intros Hd. unfold build_model.
  rewrite (bind_ok _ _ _ _ _ (load_some _ _ _ Hd)).
  unfold bind at 1. rewrite (df_getitem_run _ _ _ _ Hd).
  destruct (getitem d "infrastructure") as [ci|e]; [|done].
  unfold bind at 1. rewrite (df_getitem_run _ _ _ _ Hd).
  by destruct (getitem d "observed_demand") as [co|e].
Qed.

Lemma build_model_dangling df w :
  heap w !! df = None ->
  build_model df w =
    (Raise (PyBaseException "SystemError" "dangling reference"), w).
Proof. intros Hd. unfold build_model, bind, load. by rewrite Hd. Qed.

(** Declaring the model changes nothing. *)
Lemma build_model_pure df w : (build_model df w).2 = w.
Proof.
  destruct (heap w !! df) as [d|] eqn:Hd.
  - rewrite (build_model_run _ _ _ Hd).
    destruct (getitem d "infrastructure"); [|done].
    by destruct (getitem d "observed_demand").
  - by rewrite build_model_dangling.
Qed.

Section FitRuns.

Context {Approximation : Type}.
Variable pm_fit : string -> Z -> Model -> N -> result Approximation * N.
Variable sample : Approximation -> Z -> N -> result Trace * N.

Abbreviation fit := (fit_hierarchical_model Approximation pm_fit sample).

(** After a Laplace attempt that raised an [Exception]: both lines are
    printed and the full-rank fit runs from the state Laplace left. *)
Lemma fit_after_laplace_failure df n w model c m s1 :
  build_model df w = (Ok model, w) ->
  pm_fit "laplace" n model (rng w) = (Raise (PyException c m), s1) ->
  fit df n w =
    (approx <- random_call (pm_fit "fullrank_advi" n model) ;;
     trace <- random_call (sample approx 1000) ;;
     ret (model, trace))
      (mkWorld s1 (stdout w ++ fallback_lines m) (heap w)).
Proof.
  intros Hm Hl. unfold fit_hierarchical_model.
  rewrite (bind_ok _ _ _ _ _ Hm).
  unfold bind at 1.
  erewrite try_except_caught.
  2:{ unfold bind at 1. rewrite print_run.
      apply random_call_run. cbn. exact Hl. }
  cbn [exn_msg]. unfold bind at 1. rewrite print_run.
  unfold set_stdout, set_rng, fallback_lines; cbn.
  rewrite <- app_assoc. cbn. reflexivity.
Qed.

End FitRuns.

(** ** What a computation depends on *)

Section ReadsOnly.

Variable df : loc.











End ReadsOnly.

(** * The claims *)

(** ** The residual calculator *)



(** C3: for a frame with its [infrastructure] and [observed_demand]
    columns and an ensemble with one random-effect component per unit,
    [calculate_residuals] returns, and the predicted demand of every unit is
    the exponential of: the mean of the draws of [alpha], plus the mean of
    the draws of [beta_infra] times the unit's covariate, plus the mean of
    the draws of the unit's own random effect. *)
Theorem predicted_demand_formula df trace w d ci :
  heap w !! df = Some d ->
  wf_frame d ->
  assoc "infrastructure" (columns d) = Some ci ->
  is_Some (assoc "observed_demand" (columns d)) ->
  length (neigh_eff trace) = len d ->
  exists w' d' pred,
    calculate_residuals df trace w = (Ok df, w') /\
    heap w' !! df = Some d' /\
    assoc "predicted_demand" (columns d') = Some (FloatCol pred) /\
    length pred = len d /\
    forall i x effs,
      values ci !! i = Some x -> neigh_eff trace !! i = Some effs ->
      pred !! i =
        Some (exp (mean (alpha trace) + mean (beta_infra trace) * x
                   + mean effs)).
Proof.
  intros Hd Hwf Hci [co Hco] Hm.
  destruct (calculate_residuals_ok df trace w d ci co Hd Hci Hco)
    as (ll & Hll & Hlen & Hrun); eauto using wf_frame_column.
  eexists _, _, (np_exp ll). split; [exact Hrun|].
  split; [apply heap_set_heap_insert|].
  split; [apply final_frame_predicted|].
  split; [by rewrite length_np_exp|].
  intros i x effs Hx He. unfold np_exp. rewrite lookup_map.
  unfold log_lambda_of in Hll.
  erewrite (broadcast2_lookup _ _ _ _ i _ _ Hll); [done|..].
  - unfold shift_by, scale_by. by rewrite !lookup_map, Hx.
  - by rewrite lookup_map, He.
Qed.

Lemma predicted_demand_formula_witness :
  exists w' d' pred,
    calculate_residuals 1%positive trace_ex (world_of frame_ex)
      = (Ok 1%positive, w') /\
    heap w' !! 1%positive = Some d' /\
    assoc "predicted_demand" (columns d') = Some (FloatCol pred) /\
    length pred = 2%nat /\
    pred !! 1%nat =
      Some (exp (mean [1; 3] + mean [2; 2] * 1 + mean [1; -1]))%R.
Proof.
  destruct (predicted_demand_formula 1%positive trace_ex (world_of frame_ex)
              frame_ex (FloatCol [0; 1]%R))
    as (w' & d' & pred & Hrun & Hd' & Hpred & Hlen & Hrows).
  - apply heap_world_of.
  - apply wf_frame_ex.
  - reflexivity.
  - eexists. reflexivity.
  - reflexivity.
  - exists w', d', pred. repeat split; try done. by apply Hrows.
Defined.

(** C5, as stated, fails: an ensemble with a single random-effect
    component is accepted for three units (numpy stretches it over the
    units), and a mismatch that is refused is refused with numpy's
    [ValueError]. *)
Lemma dimension_mismatch_accepted :
  length (neigh_eff trace_one) <> len frame3 /\
  (exists w', calculate_residuals 1%positive trace_one (world_of frame3)
              = (Ok 1%positive, w')) /\
  length (neigh_eff trace_ex) <> len frame3 /\
  calculate_residuals 1%positive trace_ex (world_of frame3)
  = (Raise (PyException "ValueError"
              "operands could not be broadcast together"),
     world_of frame3).
Proof.
  split; [cbn; lia|]. split.
  - exists (calculate_residuals 1%positive trace_one (world_of frame3)).2.
    vm_compute. reflexivity.
  - split; [cbn; lia|]. vm_compute. reflexivity.
Qed.

(** C5, amended: when the number of random-effect components of the
    ensemble is neither the number of units nor one, [calculate_residuals]
    fails with a [ValueError] and leaves the store as it found it; nothing
    is retried. *)
Theorem dimension_mismatch_refused df trace w d :
  heap w !! df = Some d ->
  wf_frame d ->
  is_Some (assoc "infrastructure" (columns d)) ->
  is_Some (assoc "observed_demand" (columns d)) ->
  length (neigh_eff trace) <> len d ->
  length (neigh_eff trace) <> 1%nat ->
  exists msg, calculate_residuals df trace w = (Raise (ValueError msg), w).
Proof.
  intros Hd Hwf [ci Hci] [co Hco] Hmn Hm1.
  eapply calculate_residuals_refused; eauto using wf_frame_column.
Qed.

Lemma dimension_mismatch_refused_witness :
  exists msg,
    calculate_residuals 1%positive trace_ex (world_of frame3)
    = (Raise (ValueError msg), world_of frame3).
Proof.
  apply (dimension_mismatch_refused 1%positive trace_ex (world_of frame3) frame3).
  - apply heap_world_of.
  - apply wf_frame3.
  - eexists; reflexivity.
  - eexists; reflexivity.
  - cbn; lia.
  - cbn; lia.
Defined.





(** C10: [calculate_residuals] updates the caller's frame in place and
    returns the reference it was given.  The frame gains the columns
    [residuals] and [predicted_demand], each with one entry per row; its
    row labels and their order, every column of another name, and the
    order of the columns that were there are as before; no other object of
    the store, and nothing else of the state, changes. *)
Theorem calculate_residuals_in_place df trace w df' w' :
  calculate_residuals df trace w = (Ok df', w') ->
  df' = df /\
  rng w' = rng w /\ stdout w' = stdout w /\
  exists d d' res pred,
    heap w !! df = Some d /\
    heap w' = <[df := d']> (heap w) /\
    index d' = index d /\
    assoc "residuals" (columns d') = Some (FloatCol res) /\
    assoc "predicted_demand" (columns d') = Some (FloatCol pred) /\
    length res = len d /\ length pred = len d /\
    (forall name, name <> "residuals" -> name <> "predicted_demand" ->
       assoc name (columns d') = assoc name (columns d)) /\
    (columns d).*1 `prefix_of` (columns d').*1.
Proof.
  intros (d & ci & co & ll & res & Hd & Hci & Hco & Hll & Hres & Hlr & Hlp
          & -> & ->)%calculate_residuals_inv.
  repeat split.
  exists d, (final_frame d res (np_exp ll)), res, (np_exp ll).
  split; [done|]. split; [done|]. split; [done|].
  split; [apply final_frame_residuals|].
  split; [apply final_frame_predicted|].
  split; [done|]. split; [by rewrite length_np_exp|].
  split; [intros; by apply final_frame_other|apply final_frame_names].
Qed.

Lemma calculate_residuals_in_place_witness :
  let w := world_of frame_ex in
  exists w',
    calculate_residuals 1%positive trace_ex w = (Ok 1%positive, w') /\
    rng w' = rng w /\ stdout w' = stdout w /\
    exists d' res pred,
      heap w' = <[1%positive := d']> (heap w) /\
      index d' = [0; 1] /\
      assoc "residuals" (columns d') = Some (FloatCol res) /\
      assoc "predicted_demand" (columns d') = Some (FloatCol pred) /\
      length res = 2%nat /\ length pred = 2%nat /\
      assoc "x" (columns d') = Some (FloatCol [1; 2]%R).
Proof.
  intros w. exists (calculate_residuals 1%positive trace_ex w).2.
  assert (calculate_residuals 1%positive trace_ex w
          = (Ok 1%positive, (calculate_residuals 1%positive trace_ex w).2))
    as Hrun by (vm_compute; reflexivity).
  split; [exact Hrun|].
  destruct (calculate_residuals_in_place _ _ _ _ _ Hrun)
    as (_ & Hrng & Hout & d & d' & res & pred & Hd & Hheap & Hidx & Hres
        & Hpred & Hlr & Hlp & Hother & _).
  split; [exact Hrng|]. split; [exact Hout|].
  assert (d = frame_ex) as ->.
  { unfold w, world_of in Hd; cbn in Hd.
    rewrite lookup_singleton_eq in Hd. congruence. }
  exists d', res, pred. repeat split; try done.
  rewrite Hother; done.
Defined.

(** ** Fitting *)

Section FitClaims.

Context {Approximation : Type}.
Variable pm_fit : string -> Z -> Model -> N -> result Approximation * N.
Variable sample : Approximation -> Z -> N -> result Trace * N.

(** C1: when the Laplace attempt raises an [Exception],
    [fit_hierarchical_model] does not raise it.  It prints the condition
    and goes on with [fullrank_advi] from the state the attempt left, so
    that its outcome is that of the full-rank fit followed by sampling; when
    these two succeed it returns the model with the ensemble drawn from the
    full-rank approximation. *)
Theorem laplace_failure_falls_back df n w model c m s1 :
  build_model df w = (Ok model, w) ->
  pm_fit "laplace" n model (rng w) = (Raise (PyException c m), s1) ->
  let w1 := mkWorld s1 (stdout w ++ fallback_lines m) (heap w) in
  fit_hierarchical_model Approximation pm_fit sample df n w =
    (approx <- random_call (pm_fit "fullrank_advi" n model) ;;
     trace <- random_call (sample approx 1000) ;;
     ret (model, trace)) w1 /\
  forall approx s2 trace s3,
    pm_fit "fullrank_advi" n model s1 = (Ok approx, s2) ->
    sample approx 1000 s2 = (Ok trace, s3) ->
    fit_hierarchical_model Approximation pm_fit sample df n w =
      (Ok (model, trace), set_rng s3 w1).
Proof.
  intros Hm Hl w1.
  pose proof (fit_after_laplace_failure pm_fit sample _ _ _ _ _ _ _ Hm Hl)
    as Hrun. fold w1 in Hrun.
  split; [exact Hrun|].
  intros approx s2 trace s3 Hf Hs. rewrite Hrun.
  erewrite bind_ok by (apply random_call_run; exact Hf).
  erewrite bind_ok by (apply random_call_run; exact Hs).
  done.
Qed.

(** C4, amended: when the Laplace attempt raises an [Exception] and the
    full-rank fit raises too, [fit_hierarchical_model] raises what the
    full-rank fit raised, as it is, after printing the two lines. *)
Theorem all_strategies_fail df n w model c m s1 e2 s2 :
  build_model df w = (Ok model, w) ->
  pm_fit "laplace" n model (rng w) = (Raise (PyException c m), s1) ->
  pm_fit "fullrank_advi" n model s1 = (Raise e2, s2) ->
  fit_hierarchical_model Approximation pm_fit sample df n w =
    (Raise e2, mkWorld s2 (stdout w ++ fallback_lines m) (heap w)).
Proof.
  intros Hm Hl Hf.
  rewrite (fit_after_laplace_failure pm_fit sample _ _ _ _ _ _ _ Hm Hl).
  erewrite bind_raise by (apply random_call_run; exact Hf).
  done.
Qed.

End FitClaims.

Lemma laplace_failure_falls_back_witness :
  fit_hierarchical_model (nat * N) stub_fit stub_sample 1%positive 20000
    (world_of frame_ex)
  = (Ok (declared_model 2 (FloatCol [0; 1]%R) (IntCol [0; 3]),
         mkTrace [0%R] [0%R] [1%R] [[0%R]; [0%R]]),
     mkWorld 2
       ["Attempting Laplace approximation...";
        "Laplace method not available (unknown method laplace), falling back to fullrank_advi"]
       {[ 1%positive := frame_ex ]}).
Proof.
  refine (proj2 (laplace_failure_falls_back stub_fit stub_sample
                   1%positive 20000 (world_of frame_ex)
                   (declared_model 2 (FloatCol [0; 1]%R) (IntCol [0; 3]))
                   "ValueError" "unknown method laplace"
                   0%N _ _) (2%nat, 0%N) 1%N _ 2%N _ _).
  - vm_compute. reflexivity.
  - reflexivity.
  - reflexivity.
  - reflexivity.
Defined.

(** C4, as stated, fails: with a library in which both methods fail the
    call raises the exception of the full-rank fit, which is no
    [InferenceFailureError] and lists no attempts; and a frame without the
    covariate column is another fatal outcome, a [KeyError]. *)
Lemma raw_exception_propagates :
  (exists w',
     fit_hierarchical_model (nat * N) failing_fit stub_sample 1%positive 20000
       (world_of frame_ex)
     = (Raise (PyException "FloatingPointError" "NaN occurred in optimization"),
        w')) /\
  "FloatingPointError" <> "InferenceFailureError" /\
  fit_hierarchical_model (nat * N) stub_fit stub_sample 1%positive 20000
    (world_of frame_no_infra)
  = (Raise (PyException "KeyError" "'infrastructure'"), world_of frame_no_infra).
Proof.
  split; [|split; [done|]].
  - eexists (snd (fit_hierarchical_model (nat * N) failing_fit stub_sample
                    1%positive 20000 (world_of frame_ex))).
    vm_compute. reflexivity.
  - vm_compute. reflexivity.
Qed.

Lemma all_strategies_fail_witness :
  fit_hierarchical_model (nat * N) failing_fit stub_sample 1%positive 20000
    (world_of frame_ex)
  = (Raise (PyException "FloatingPointError" "NaN occurred in optimization"),
     mkWorld 1
       (fallback_lines "unknown method laplace")
       {[ 1%positive := frame_ex ]}).
Proof.
  refine (all_strategies_fail failing_fit stub_sample
            1%positive 20000 (world_of frame_ex)
            (declared_model 2 (FloatCol [0; 1]%R) (IntCol [0; 3]))
            "ValueError" "unknown method laplace"
            0%N _ 1%N _ _ _).
  - vm_compute. reflexivity.
  - reflexivity.
  - reflexivity.
Defined.

(** C6, as stated, fails: for a frame without the covariate column the
    declaration of the model fails with the [KeyError] of the column
    lookup, not with an [InvalidModelError]. *)
Lemma missing_covariate_is_key_error :
  build_model 1%positive (world_of frame_no_infra)
  = (Raise (PyException "KeyError" "'infrastructure'"),
     world_of frame_no_infra) /\
  "KeyError" <> "InvalidModelError".
Proof. split; [vm_compute; reflexivity|done]. Qed.

(** C6, amended: declaring the model has no side effect and validates
    nothing.  For a frame that has the columns [infrastructure] and
    [observed_demand] it returns the model with the fixed prior scales 5, 3
    and 1 and the random-effect scale [sigma_neigh], all positive, and with
    one random-effect component, one covariate value and one observed count
    per row.  Otherwise it raises the [KeyError] of the column that is
    missing. *)
Theorem model_declaration df w d :
  heap w !! df = Some d ->
  wf_frame d ->
  exists r,
    build_model df w = (r, w) /\
    match r with
    | Ok model =>
        exists ci co,
          assoc "infrastructure" (columns d) = Some ci /\
          assoc "observed_demand" (columns d) = Some co /\
          model = declared_model (len d) ci co /\
          Forall (positive_scale model) (free_RVs model) /\
          (forall p, p ∈ free_RVs model -> p_name p = "neigh_eff" ->
                     p_shape p = [len d]) /\
          length (values ci) = len d /\
          col_length (l_observed (observed_RV model)) = len d
    | Raise e =>
        (assoc "infrastructure" (columns d) = None /\
         e = KeyError "infrastructure") \/
        (assoc "observed_demand" (columns d) = None /\
         e = KeyError "observed_demand")
    end.
Proof.
  intros Hd Hwf. rewrite (build_model_run _ _ _ Hd). unfold getitem.
  destruct (assoc "infrastructure" (columns d)) as [ci|] eqn:Hci.
  2:{ eexists. split; [done|]. by left. }
  destruct (assoc "observed_demand" (columns d)) as [co|] eqn:Hco.
  2:{ eexists. split; [done|]. by right. }
  eexists. split; [done|]. exists ci, co.
  split; [done|]. split; [done|]. split; [done|]. split; [|split; [|split]].
  - unfold positive_scale. repeat constructor; cbn.
    exists (HalfNormal "sigma_neigh" 1). split; [|done].
    apply list_elem_of_In. cbn. tauto.
  - intros p Hp Hname. cbn in Hp.
    repeat (apply elem_of_cons in Hp as [->|Hp]; [by try discriminate|]).
    by apply elem_of_nil in Hp.
  - by eapply wf_frame_column.
  - rewrite <- values_length. by eapply wf_frame_column.
Qed.

Lemma model_declaration_witness :
  exists model,
    build_model 1%positive (world_of frame_ex) = (Ok model, world_of frame_ex)
    /\ Forall (positive_scale model) (free_RVs model).
Proof.
  destruct (model_declaration 1%positive (world_of frame_ex) frame_ex
              (heap_world_of frame_ex) wf_frame_ex) as (r & Hrun & Hr).
  destruct r as [model|e].
  - exists model. split; [exact Hrun|].
    destruct Hr as (ci & co & _ & _ & _ & Hpos & _). exact Hpos.
  - exfalso. destruct Hr as [[H _]|[H _]]; discriminate H.
Defined.




(** * Further properties *)

(** ** Failures of [calculate_residuals] *)

Lemma broadcast2_raise_inv f xs ys e :
  broadcast2 f xs ys = Raise e ->
  e = ValueError "operands could not be broadcast together" /\
  length xs <> length ys /\ length xs <> 1%nat /\ length ys <> 1%nat.
Proof.
  unfold broadcast2. destruct (decide _) as [Hl|Hl]; [discriminate|].
  destruct xs as [|x [|? ?]], ys as [|y [|? ?]]; cbn in *;
    try discriminate; intros [= <-]; repeat split; congruence.
Qed.

(** X1: on a well-formed frame a call of [calculate_residuals] that
    raises leaves the store exactly as it found it, and what it raises is
    the [KeyError] of a missing [infrastructure] or [observed_demand]
    column, or a [ValueError] for an ensemble whose number of random-effect
    components is neither the number of rows nor one. *)
Theorem calculate_residuals_failure_atomic df trace w d e w' :
  heap w !! df = Some d ->
  wf_frame d ->
  calculate_residuals df trace w = (Raise e, w') ->
  w' = w /\
  ((e = KeyError "infrastructure" /\
    assoc "infrastructure" (columns d) = None) \/
   (e = KeyError "observed_demand" /\
    assoc "observed_demand" (columns d) = None) \/
   (exists msg, e = ValueError msg /\
      length (neigh_eff trace) <> len d /\
      length (neigh_eff trace) <> 1%nat)).
Proof.
  intros Hd Hwf. rewrite (calculate_residuals_run _ _ _ _ Hd). unfold getitem.
  destruct (assoc "infrastructure" (columns d)) as [ci|] eqn:Hci.
  2:{ intros [= <- <-]. split; [done|]. by left. }
  pose proof (wf_frame_column _ _ _ Hwf Hci) as Hlci.
  pose proof (log_lambda_of_base_length trace ci) as Hb.
  destruct (log_lambda_of trace ci) as [ll|e1] eqn:Hll.
  2:{ intros [= <- <-]. split; [done|]. right; right.
      apply broadcast2_raise_inv in Hll as (-> & H1 & H2 & H3).
      rewrite Hb, length_map in H1. rewrite length_map in H3.
      eexists. split; [done|]. split; congruence. }
  apply broadcast2_length in Hll as Hlen.
  rewrite Hb, length_map, Hlci in Hlen.
  destruct (assoc "observed_demand" (columns d)) as [co|] eqn:Hco.
  2:{ intros [= <- <-]. split; [done|]. right; left. done. }
  pose proof (wf_frame_column _ _ _ Hwf Hco) as Hlco.
  unfold series_sub, rbind; cbn [s_values s_index].
  destruct (broadcast2 Rminus _ _) as [res|e2] eqn:Hres.
  2:{ apply broadcast2_raise_inv in Hres as (-> & H1 & H2 & H3).
      rewrite length_np_exp in H1, H3. lia. }
  apply broadcast2_length in Hres as Hlr. rewrite length_np_exp, Hlco in Hlr.
  destruct (decide (length res = length (index d))) as [Hrn|Hrn].
  2:{ intros [= <- <-]. split; [done|]. right; right.
      eexists. split; [done|]. unfold len in *. lia. }
  cbn [s_values]. unfold setitem at 1. rewrite decide_True by done.
  cbn zeta. unfold setitem, len; cbn [index columns].
  rewrite decide_True by (rewrite length_np_exp; unfold len in *; lia).
  discriminate.
Qed.

Lemma calculate_residuals_failure_atomic_witness :
  calculate_residuals 1%positive trace_ex (world_of frame_no_infra)
  = (Raise (KeyError "infrastructure"), world_of frame_no_infra).
Proof.
  assert (wf_frame frame_no_infra) as Hwf.
  { split; [repeat constructor|].
    apply (bool_decide_unpack _). vm_compute. exact I. }
  assert (calculate_residuals 1%positive trace_ex (world_of frame_no_infra)
          = (Raise (KeyError "infrastructure"),
             (calculate_residuals 1%positive trace_ex
                (world_of frame_no_infra)).2))
    as Hrun by (vm_compute; reflexivity).
  destruct (calculate_residuals_failure_atomic _ _ _ _ _ _
              (heap_world_of frame_no_infra) Hwf Hrun) as [Hw _].
  rewrite Hw in Hrun. exact Hrun.
Defined.

(** X2: on a well-formed frame with both columns, [calculate_residuals]
    returns exactly when the ensemble has one random-effect component per
    row, or a single one. *)
Theorem calculate_residuals_returns_iff df trace w d :
  heap w !! df = Some d ->
  wf_frame d ->
  is_Some (assoc "infrastructure" (columns d)) ->
  is_Some (assoc "observed_demand" (columns d)) ->
  (exists w', calculate_residuals df trace w = (Ok df, w')) <->
  (length (neigh_eff trace) = len d \/ length (neigh_eff trace) = 1%nat).
Proof.
  intros Hd Hwf [ci Hci] [co Hco]. split.
  - intros [w' Hrun].
    destruct (decide (length (neigh_eff trace) = len d)) as [|Hmn]; [by left|].
    destruct (decide (length (neigh_eff trace) = 1%nat)) as [|Hm1]; [by right|].
    destruct (calculate_residuals_refused df trace w d ci co)
      as [msg Hr]; eauto using wf_frame_column.
    congruence.
  - intros Hm.
    destruct (calculate_residuals_ok df trace w d ci co)
      as (ll & _ & _ & Hrun); eauto using wf_frame_column.
Qed.

Lemma calculate_residuals_returns_iff_witness :
  exists w', calculate_residuals 1%positive trace_one (world_of frame3)
             = (Ok 1%positive, w').
Proof.
  apply (calculate_residuals_returns_iff 1%positive trace_one
           (world_of frame3) frame3).
  - apply heap_world_of.
  - apply wf_frame3.
  - eexists; reflexivity.
  - eexists; reflexivity.
  - right; reflexivity.
Defined.

(** ** Shapes, order and totals *)

(** X3: an ensemble with a single random-effect component is accepted
    for a frame of any number of rows, and that one posterior mean enters
    the predicted demand of every row. *)
Theorem single_component_is_shared df trace w d ci effs :
  heap w !! df = Some d ->
  wf_frame d ->
  assoc "infrastructure" (columns d) = Some ci ->
  is_Some (assoc "observed_demand" (columns d)) ->
  neigh_eff trace = [effs] ->
  exists w' d' pred,
    calculate_residuals df trace w = (Ok df, w') /\
    heap w' !! df = Some d' /\
    assoc "predicted_demand" (columns d') = Some (FloatCol pred) /\
    length pred = len d /\
    forall i x,
      values ci !! i = Some x ->
      pred !! i =
        Some (exp (mean (alpha trace) + mean (beta_infra trace) * x
                   + mean effs)).
Proof.
  intros Hd Hwf Hci [co Hco] Heff.
  destruct (calculate_residuals_ok df trace w d ci co Hd Hci Hco)
    as (ll & Hll & Hlen & Hrun); eauto using wf_frame_column.
  { right. by rewrite Heff. }
  eexists _, _, (np_exp ll). split; [exact Hrun|].
  split; [apply heap_set_heap_insert|].
  split; [apply final_frame_predicted|].
  split; [by rewrite length_np_exp|].
  intros i x Hx. unfold np_exp. rewrite lookup_map.
  unfold log_lambda_of in Hll. rewrite Heff in Hll. cbn [map] in Hll.
  rewrite broadcast2_stretch_r in Hll. injection Hll as <-.
  unfold shift_by, scale_by. by rewrite !lookup_map, Hx.
Qed.

Lemma single_component_is_shared_witness :
  exists w' d' pred,
    calculate_residuals 1%positive trace_one (world_of frame3)
      = (Ok 1%positive, w') /\
    heap w' !! 1%positive = Some d' /\
    assoc "predicted_demand" (columns d') = Some (FloatCol pred) /\
    pred !! 2%nat = Some (exp (mean [1; 3] + mean [2; 2] * 1 + mean [0; 0]))%R.
Proof.
  destruct (single_component_is_shared 1%positive trace_one (world_of frame3)
              frame3 (FloatCol [0; 1; 1]%R) [0; 0]%R)
    as (w' & d' & pred & Hrun & Hd' & Hpred & _ & Hrows).
  - apply heap_world_of.
  - apply wf_frame3.
  - reflexivity.
  - eexists; reflexivity.
  - reflexivity.
  - exists w', d', pred. repeat split; try done. by apply Hrows.
Defined.

Lemma set_assoc_set_assoc name c1 c2 cs :
  set_assoc name c2 (set_assoc name c1 cs) = set_assoc name c2 cs.
Proof.
  induction cs as [|[k c0] cs IH]; cbn.
  - by rewrite decide_True.
  - destruct (decide (k = name)) as [->|Hk]; cbn.
    + by rewrite decide_True.
    + rewrite decide_False by done. by rewrite IH.
Qed.

Lemma set_assoc_comm_present k1 k2 c1 c2 cs :
  k1 <> k2 -> k1 ∈ cs.*1 ->
  set_assoc k1 c1 (set_assoc k2 c2 cs) = set_assoc k2 c2 (set_assoc k1 c1 cs).
Proof.
  intros Hne. induction cs as [|[k c0] cs IH]; cbn.
  - by intros ?%elem_of_nil.
  - intros Hin. destruct (decide (k = k2)) as [->|Hk2].
    + cbn. rewrite !decide_False by congruence. cbn. by rewrite decide_True.
    + cbn. destruct (decide (k = k1)) as [->|Hk1]; cbn.
      * by rewrite decide_False.
      * rewrite decide_False by done. f_equal. apply IH.
        apply elem_of_cons in Hin as [?|?]; [by subst|done].
Qed.

Lemma set_assoc_names_elem name c cs : name ∈ (set_assoc name c cs).*1.
Proof.
  rewrite names_set_assoc. destruct (decide _); [done|].
  apply elem_of_app. right. by left.
Qed.

Lemma final_frame_final_frame d r1 p1 r2 p2 :
  final_frame (final_frame d r1 p1) r2 p2 = final_frame d r2 p2.
Proof.
  unfold final_frame; cbn [index columns]. f_equal.
  rewrite (set_assoc_comm_present "residuals" "predicted_demand")
    by (done || apply set_assoc_names_elem).
  by rewrite !set_assoc_set_assoc.
Qed.

(** X4: the last call wins.  When [calculate_residuals] has returned for
    one ensemble, calling it on the same frame for a second ensemble leaves
    the store that calling it for the second ensemble alone would have
    left: the two columns are overwritten where they stand.  In particular
    a repeated call with the same ensemble changes nothing. *)
Theorem calculate_residuals_last_call_wins df t1 t2 w w1 w2 :
  calculate_residuals df t1 w = (Ok df, w1) ->
  calculate_residuals df t2 w = (Ok df, w2) ->
  calculate_residuals df t2 w1 = (Ok df, w2).
Proof.
  intros (d & ci & co & ll1 & res1 & Hd & Hci & Hco & Hll1 & Hres1 & Hlr1
          & Hlp1 & _ & ->)%calculate_residuals_inv
         (d' & ci' & co' & ll2 & res2 & Hd' & Hci' & Hco' & Hll2 & Hres2
          & Hlr2 & Hlp2 & _ & ->)%calculate_residuals_inv.
  rewrite Hd in Hd'. injection Hd' as <-.
  rewrite Hci in Hci'. injection Hci' as <-.
  rewrite Hco in Hco'. injection Hco' as <-.
  erewrite calculate_residuals_run by apply heap_set_heap_insert.
  unfold getitem. rewrite !final_frame_other by done.
  rewrite Hci, Hll2, Hco.
  unfold series_sub, rbind; cbn [s_values s_index final_frame index].
  rewrite Hres2. rewrite decide_True by done. cbn [s_values].
  unfold setitem at 1. unfold len at 1. cbn [index].
  rewrite decide_True by done.
  cbn zeta. unfold setitem, len; cbn [index columns].
  rewrite decide_True by (rewrite length_np_exp; done).
  f_equal. unfold set_heap; cbn. rewrite !insert_insert_eq. do 2 f_equal.
  apply (final_frame_final_frame d res1 (np_exp ll1) res2 (np_exp ll2)).
Qed.

Lemma calculate_residuals_last_call_wins_witness :
  exists w1,
    calculate_residuals 1%positive trace_ex (world_of frame_ex)
      = (Ok 1%positive, w1) /\
    calculate_residuals 1%positive trace_ex w1 = (Ok 1%positive, w1).
Proof.
  exists (calculate_residuals 1%positive trace_ex (world_of frame_ex)).2.
  assert (calculate_residuals 1%positive trace_ex (world_of frame_ex)
          = (Ok 1%positive,
             (calculate_residuals 1%positive trace_ex (world_of frame_ex)).2))
    as Hrun by (vm_compute; reflexivity).
  split; [exact Hrun|].
  exact (calculate_residuals_last_call_wins _ _ _ _ _ _ Hrun Hrun).
Defined.

(** X5: on a frame that has neither a [residuals] nor a
    [predicted_demand] column, [calculate_residuals] appends the two after
    the existing columns, [residuals] first; on a frame that already has
    both, the list of column names is as before. *)
Theorem calculate_residuals_column_order df trace w df' w' :
  calculate_residuals df trace w = (Ok df', w') ->
  exists d d',
    heap w !! df = Some d /\ heap w' !! df' = Some d' /\
    ("residuals" ∉ (columns d).*1 -> "predicted_demand" ∉ (columns d).*1 ->
     (columns d').*1
     = ((columns d).*1 ++ ["residuals"; "predicted_demand"])%list) /\
    ("residuals" ∈ (columns d).*1 -> "predicted_demand" ∈ (columns d).*1 ->
     (columns d').*1 = (columns d).*1).
Proof.
  intros (d & ci & co & ll & res & Hd & _ & _ & _ & _ & _ & _ & -> & ->)
         %calculate_residuals_inv.
  exists d, (final_frame d res (np_exp ll)).
  split; [done|]. split; [apply heap_set_heap_insert|].
  unfold final_frame; cbn [columns]. rewrite !names_set_assoc. split.
  - intros Hr Hp. rewrite (decide_False (P := "residuals" ∈ _)) by done.
    rewrite decide_False.
    + by rewrite <- app_assoc.
    + intros [?|[?|?]%elem_of_cons]%elem_of_app; try done.
      by apply elem_of_nil in H.
  - intros Hr Hp. rewrite (decide_True (P := "residuals" ∈ _)) by done.
    by rewrite decide_True.
Qed.

Lemma calculate_residuals_column_order_witness :
  exists w' d',
    calculate_residuals 1%positive trace_ex (world_of frame_ex)
      = (Ok 1%positive, w') /\
    heap w' !! 1%positive = Some d' /\
    (columns d').*1
    = ["neighborhood"; "x"; "y"; "infrastructure"; "observed_demand";
       "residuals"; "predicted_demand"].
Proof.
  assert (calculate_residuals 1%positive trace_ex (world_of frame_ex)
          = (Ok 1%positive,
             (calculate_residuals 1%positive trace_ex (world_of frame_ex)).2))
    as Hrun by (vm_compute; reflexivity).
  destruct (calculate_residuals_column_order _ _ _ _ _ Hrun)
    as (d & d' & Hd & Hd' & Hfresh & _).
  rewrite heap_world_of in Hd. injection Hd as <-.
  eexists _, d'. split; [exact Hrun|]. split; [exact Hd'|].
  apply Hfresh; apply (bool_decide_unpack _); vm_compute; exact I.
Defined.




(** ** Paths through [fit_hierarchical_model] *)

Section OnlyPrints.

Lemma only_prints_ret {A} (a : A) : only_prints (ret a).
Proof. by intros w. Qed.

Lemma only_prints_lift {A} (r : result A) : only_prints (lift r).
Proof. by intros w. Qed.

Lemma only_prints_bind {A B} (c : M A) (k : A -> M B) :
  only_prints c -> (forall a, only_prints (k a)) -> only_prints (bind c k).
Proof.
  intros Hc Hk w. unfold bind. destruct (Hc w) as [Hh Ho].
  destruct (c w) as [[a|e] w1]; cbn in *; [|done].
  destruct (Hk a w1) as [Hh1 Ho1]. split; [congruence|by etrans].
Qed.

Lemma only_prints_print line : only_prints (print line).
Proof. intros w. split; [done|]. by exists [line]. Qed.

Lemma only_prints_load df : only_prints (load df).
Proof. intros w. unfold load. by destruct (heap w !! df). Qed.

Lemma only_prints_df_getitem df name : only_prints (df_getitem df name).
Proof.
  apply only_prints_bind; [apply only_prints_load|].
  intros d. apply only_prints_lift.
Qed.

Lemma only_prints_random_call {A} (f : N -> result A * N) :
  only_prints (random_call f).
Proof. intros w. unfold random_call. by destruct (f (rng w)). Qed.

Lemma only_prints_try_except {A} (body : M A) handler :
  only_prints body -> (forall e, only_prints (handler e)) ->
  only_prints (try_except body handler).
Proof.
  intros Hb Hh w. unfold try_except. destruct (Hb w) as [H1 H2].
  destruct (body w) as [[a|[c m|c m]] w1]; cbn in *; try done.
  destruct (Hh (PyException c m) w1) as [H3 H4].
  split; [congruence|by etrans].
Qed.

Lemma only_prints_build_model df : only_prints (build_model df).
Proof.
  unfold build_model.
  apply only_prints_bind; [apply only_prints_load|]. intros d.
  apply only_prints_bind; [apply only_prints_df_getitem|]. intros ci.
  apply only_prints_bind; [apply only_prints_df_getitem|]. intros co.
  apply only_prints_ret.
Qed.

Lemma only_prints_fit {Approximation} pm_fit sample df n :
  only_prints (fit_hierarchical_model Approximation pm_fit sample df n).
Proof.
  unfold fit_hierarchical_model.
  apply only_prints_bind; [apply only_prints_build_model|]. intros model.
  apply only_prints_bind.
  - apply only_prints_try_except.
    + apply only_prints_bind; [apply only_prints_print|]. intros _.
      apply only_prints_random_call.
    + intros e. apply only_prints_bind; [apply only_prints_print|]. intros _.
      apply only_prints_random_call.
  - intros approx.
    apply only_prints_bind; [apply only_prints_random_call|]. intros trace.
    apply only_prints_ret.
Qed.

End OnlyPrints.

(** A call that returned had declared its model on the frame. *)
Lemma fit_ok_inv {Approximation} pm_fit sample df n w model trace w1 :
  fit_hierarchical_model Approximation pm_fit sample df n w
  = (Ok (model, trace), w1) ->
  build_model df w = (Ok model, w).
Proof.
  unfold fit_hierarchical_model. unfold bind at 1.
  pose proof (build_model_pure df w) as Hp.
  destruct (build_model df w) as [[m|e] w0]; cbn in Hp; subst w0;
    [|discriminate].
  unfold bind at 1.
  destruct (try_except _ _ w) as [[a|e] w2]; [|discriminate].
  unfold bind at 1.
  destruct (random_call _ w2) as [[t|e] w3]; [|discriminate].
  unfold ret. by intros [= -> _ _].
Qed.

Lemma build_model_ok_inv df w model :
  build_model df w = (Ok model, w) ->
  exists d ci co,
    heap w !! df = Some d /\
    assoc "infrastructure" (columns d) = Some ci /\
    assoc "observed_demand" (columns d) = Some co /\
    model = declared_model (len d) ci co.
Proof.
  destruct (heap w !! df) as [d|] eqn:Hd.
  2:{ by rewrite build_model_dangling. }
  rewrite (build_model_run _ _ _ Hd). unfold getitem.
  destruct (assoc "infrastructure" (columns d)) as [ci|] eqn:Hci;
    [|discriminate].
  destruct (assoc "observed_demand" (columns d)) as [co|] eqn:Hco;
    [|discriminate].
  intros [= <-]. by exists d, ci, co.
Qed.

Section FitPaths.

Context {Approximation : Type}.
Variable pm_fit : string -> Z -> Model -> N -> result Approximation * N.
Variable sample : Approximation -> Z -> N -> result Trace * N.

(** X7: when the Laplace attempt returns an approximation, the ensemble
    is drawn from it: the call returns the model with that ensemble, or
    raises what sampling raised.  The full-rank method is not called, and
    only the line announcing the attempt is printed. *)
Theorem laplace_success_no_fallback df n w model approx s1 r s2 :
  build_model df w = (Ok model, w) ->
  pm_fit "laplace" n model (rng w) = (Ok approx, s1) ->
  sample approx 1000 s1 = (r, s2) ->
  fit_hierarchical_model Approximation pm_fit sample df n w =
    (match r with
     | Ok trace => Ok (model, trace)
     | Raise e => Raise e
     end,
     mkWorld s2 (stdout w ++ ["Attempting Laplace approximation..."])
       (heap w)).
Proof.
  intros Hm Hl Hs. unfold fit_hierarchical_model.
  rewrite (bind_ok _ _ _ _ _ Hm).
  unfold bind at 1.
  erewrite try_except_ok.
  2:{ unfold bind at 1. rewrite print_run.
      apply random_call_run. cbn. exact Hl. }
  unfold bind at 1. erewrite random_call_run by (cbn; exact Hs).
  by destruct r.
Qed.

(** X8: an exception of the Laplace attempt that is no [Exception] (a
    [KeyboardInterrupt], say) is not caught: it leaves
    [fit_hierarchical_model] as it is, and no fallback is announced. *)
Theorem base_exception_not_caught df n w model c m s1 :
  build_model df w = (Ok model, w) ->
  pm_fit "laplace" n model (rng w) = (Raise (PyBaseException c m), s1) ->
  fit_hierarchical_model Approximation pm_fit sample df n w =
    (Raise (PyBaseException c m),
     mkWorld s1 (stdout w ++ ["Attempting Laplace approximation..."])
       (heap w)).
Proof.
  intros Hm Hl. unfold fit_hierarchical_model.
  rewrite (bind_ok _ _ _ _ _ Hm).
  unfold bind at 1.
  erewrite try_except_uncaught.
  2:{ unfold bind at 1. rewrite print_run.
      apply random_call_run. cbn. exact Hl. }
  done.
Qed.

(** X9: whatever the library does and however the call ends,
    [fit_hierarchical_model] changes no frame of the store, and what had
    been printed before is still there, followed by what the call
    printed. *)
Theorem fit_changes_no_frame df n w :
  heap (fit_hierarchical_model Approximation pm_fit sample df n w).2
  = heap w /\
  stdout w `prefix_of`
    stdout (fit_hierarchical_model Approximation pm_fit sample df n w).2.
Proof. apply only_prints_fit. Qed.

(** X10: on a frame that lacks the [infrastructure] or the
    [observed_demand] column the call fails with the [KeyError] of a
    missing column before anything is attempted: nothing is printed and the
    random source is not touched. *)
Theorem fit_missing_column df n w d :
  heap w !! df = Some d ->
  assoc "infrastructure" (columns d) = None \/
  assoc "observed_demand" (columns d) = None ->
  exists key,
    (key = "infrastructure" \/ key = "observed_demand") /\
    assoc key (columns d) = None /\
    fit_hierarchical_model Approximation pm_fit sample df n w
    = (Raise (KeyError key), w).
Proof.
  intros Hd Hmiss. unfold fit_hierarchical_model, bind at 1.
  rewrite (build_model_run _ _ _ Hd). unfold getitem.
  destruct (assoc "infrastructure" (columns d)) as [ci|] eqn:Hci.
  - destruct Hmiss as [|Hco]; [done|]. rewrite Hco.
    exists "observed_demand". auto.
  - exists "infrastructure". auto.
Qed.

(** X11: the ensemble of a call of [fit_hierarchical_model] that
    returned can be handed to [calculate_residuals] for the same frame
    without a [KeyError]: on a well-formed frame the residual step returns
    exactly when the ensemble has one random-effect component per row or a
    single one, and otherwise raises a [ValueError] and changes nothing. *)
Theorem fit_then_residuals df n w d model trace w1 :
  heap w !! df = Some d ->
  wf_frame d ->
  fit_hierarchical_model Approximation pm_fit sample df n w
  = (Ok (model, trace), w1) ->
  ((exists w2, calculate_residuals df trace w1 = (Ok df, w2)) <->
   (length (neigh_eff trace) = len d \/ length (neigh_eff trace) = 1%nat)) /\
  (forall e w2,
     calculate_residuals df trace w1 = (Raise e, w2) ->
     w2 = w1 /\ exists msg, e = ValueError msg).
Proof.
  intros Hd Hwf Hfit.
  pose proof (only_prints_fit pm_fit sample df n w) as [Hheap _].
  rewrite Hfit in Hheap. cbn in Hheap.
  apply fit_ok_inv, build_model_ok_inv in Hfit
    as (d0 & ci & co & Hd0 & Hci & Hco & _).
  rewrite Hd in Hd0. injection Hd0 as <-.
  assert (heap w1 !! df = Some d) as Hd1 by (by rewrite Hheap).
  split.
  - split.
    + intros [w2 Hrun].
      destruct (decide (length (neigh_eff trace) = len d)); [by left|].
      destruct (decide (length (neigh_eff trace) = 1%nat)); [by right|].
      destruct (calculate_residuals_refused df trace w1 d ci co)
        as [msg Hr]; eauto using wf_frame_column.
      congruence.
    + intros Hm.
      destruct (calculate_residuals_ok df trace w1 d ci co)
        as (ll & _ & _ & Hrun); eauto using wf_frame_column.
  - intros e w2 Hrun.
    destruct (decide (length (neigh_eff trace) = len d)) as [Hmn|Hmn].
    { destruct (calculate_residuals_ok df trace w1 d ci co)
        as (ll & _ & _ & Hok); eauto using wf_frame_column. congruence. }
    destruct (decide (length (neigh_eff trace) = 1%nat)) as [Hm1|Hm1].
    { destruct (calculate_residuals_ok df trace w1 d ci co)
        as (ll & _ & _ & Hok); eauto using wf_frame_column. congruence. }
    destruct (calculate_residuals_refused df trace w1 d ci co)
      as [msg Hr]; eauto using wf_frame_column.
    rewrite Hr in Hrun. injection Hrun as <- <-. eauto.
Qed.

End FitPaths.

Lemma laplace_success_no_fallback_witness :
  fit_hierarchical_model (nat * N) working_fit stub_sample 1%positive 20000
    (world_of frame_ex)
  = (Ok (declared_model 2 (FloatCol [0; 1]%R) (IntCol [0; 3]),
         mkTrace [0%R] [0%R] [1%R] [[0%R]; [0%R]]),
     mkWorld 2 ["Attempting Laplace approximation..."]
       {[ 1%positive := frame_ex ]}).
Proof.
  refine (laplace_success_no_fallback working_fit stub_sample
            1%positive 20000 (world_of frame_ex)
            (declared_model 2 (FloatCol [0; 1]%R) (IntCol [0; 3]))
            (2%nat, 0%N) 1%N
            (Ok (mkTrace [0%R] [0%R] [1%R] [[0%R]; [0%R]])) 2%N _ _ _).
  - vm_compute. reflexivity.
  - reflexivity.
  - reflexivity.
Defined.

Lemma base_exception_not_caught_witness :
  fit_hierarchical_model (nat * N) interrupted_fit stub_sample 1%positive
    20000 (world_of frame_ex)
  = (Raise (PyBaseException "KeyboardInterrupt" ""),
     mkWorld 0 ["Attempting Laplace approximation..."]
       {[ 1%positive := frame_ex ]}).
Proof.
  refine (base_exception_not_caught interrupted_fit stub_sample
            1%positive 20000 (world_of frame_ex)
            (declared_model 2 (FloatCol [0; 1]%R) (IntCol [0; 3]))
            "KeyboardInterrupt" "" 0%N _ _).
  - vm_compute. reflexivity.
  - reflexivity.
Defined.

Lemma fit_missing_column_witness :
  exists key,
    (key = "infrastructure" \/ key = "observed_demand") /\
    assoc key (columns frame_no_infra) = None /\
    fit_hierarchical_model (nat * N) stub_fit stub_sample 1%positive 20000
      (world_of frame_no_infra)
    = (Raise (KeyError key), world_of frame_no_infra).
Proof.
  apply (fit_missing_column stub_fit stub_sample 1%positive 20000
           (world_of frame_no_infra) frame_no_infra).
  - apply heap_world_of.
  - left. reflexivity.
Defined.

Lemma fit_then_residuals_witness :
  exists model trace w1 w2,
    fit_hierarchical_model (nat * N) stub_fit stub_sample 1%positive 20000
      (world_of frame_ex) = (Ok (model, trace), w1) /\
    calculate_residuals 1%positive trace w1 = (Ok 1%positive, w2).
Proof.
  set (run := fit_hierarchical_model (nat * N) stub_fit stub_sample
                1%positive 20000 (world_of frame_ex)).
  assert (run = (Ok (declared_model 2 (FloatCol [0; 1]%R) (IntCol [0; 3]),
                     mkTrace [0%R] [0%R] [1%R] [[0%R]; [0%R]]), run.2))
    as Hrun by (vm_compute; reflexivity).
  destruct (fit_then_residuals stub_fit stub_sample 1%positive 20000
              (world_of frame_ex) frame_ex _ _ _
              (heap_world_of frame_ex) wf_frame_ex Hrun) as [[_ Hret] _].
  destruct Hret as [w2 Hw2]; [left; reflexivity|].
  eexists _, _, _, w2. split; [exact Hrun|exact Hw2].
Defined.

(** ** [generate_synthetic_data] *)

Lemma length_arange n : length (arange n) = n.
Proof. unfold arange. by rewrite length_map, length_seq. Qed.

Lemma pd_DataFrame_ok cols d :
  pd_DataFrame cols = Ok d ->
  columns d = cols /\
  Forall (fun kc => col_length kc.2 = len d) cols /\
  match cols with
  | [] => index d = []
  | (_, c) :: _ => index d = arange (col_length c)
  end.
Proof.
  unfold pd_DataFrame. destruct cols as [|[k c] cols].
  - intros [= <-]. by repeat split.
  - destruct (decide _) as [Hall|]; [|discriminate].
    intros [= <-]. repeat split. unfold len; cbn [index].
    by rewrite length_arange.
Qed.

Section SyntheticProperties.

Variable np_seeded : Z -> N.
Variable np_uniform : R -> R -> nat -> N -> list (R * R) * N.
Variable np_beta : R -> R -> nat -> N -> list R * N.
Variable np_normal : R -> R -> nat -> N -> list R * N.
Variable np_poisson : list R -> N -> result (list Z) * N.

(** What a call that returned went through. *)
Lemma generate_ok_inv n_neigh seed s0 d s :
  generate_synthetic_data np_seeded np_uniform np_beta np_normal np_poisson
    n_neigh seed s0 = (Ok d, s) ->
  0 <= n_neigh /\ 0 <= seed < 2 ^ 32 /\
  exists coords infra counts,
    pd_DataFrame
      [("neighborhood", IntCol (arange (Z.to_nat n_neigh)));
       ("x", FloatCol (map fst coords));
       ("y", FloatCol (map snd coords));
       ("infrastructure", FloatCol infra);
       ("observed_demand", IntCol counts)] = Ok d.
Proof.
  unfold generate_synthetic_data, np_random_seed, np_size.
  destruct (decide (0 <= seed < 2 ^ 32)) as [Hseed|]; [|discriminate].
  destruct (decide (n_neigh < 0)) as [|Hn]; [discriminate|].
  destruct (np_uniform _ _ _ _) as [coords s1].
  destruct (np_beta _ _ _ _) as [infra s2].
  destruct (np_normal _ _ _ _) as [eff s3].
  destruct (broadcast2 _ _ _) as [ll|]; [|discriminate].
  destruct (np_poisson _ _) as [[counts|] s4]; [|discriminate].
  intros [= Hd <-]. split; [lia|]. split; [done|]. by exists coords, infra, counts.
Qed.

(** X12: a frame [generate_synthetic_data] returns has one row per
    neighbourhood asked for, labelled [0] to [n_neigh - 1], and exactly the
    columns [neighborhood], [x], [y], [infrastructure], [observed_demand]
    in this order, each with one entry per row; [neighborhood] repeats the
    row labels.  (The function returns only for a non-negative [n_neigh]
    and a seed that fits in 32 bits.) *)
Theorem generated_frame_shape n_neigh seed s0 d s :
  generate_synthetic_data np_seeded np_uniform np_beta np_normal np_poisson
    n_neigh seed s0 = (Ok d, s) ->
  0 <= n_neigh /\ 0 <= seed < 2 ^ 32 /\
  len d = Z.to_nat n_neigh /\
  index d = arange (Z.to_nat n_neigh) /\
  (columns d).*1
  = ["neighborhood"; "x"; "y"; "infrastructure"; "observed_demand"] /\
  wf_frame d /\
  assoc "neighborhood" (columns d)
  = Some (IntCol (arange (Z.to_nat n_neigh))).
Proof.
  intros (Hn & Hseed & coords & infra & counts & Hd)%generate_ok_inv.
  apply pd_DataFrame_ok in Hd as (Hcols & Hall & Hidx).
  cbn [col_length] in Hidx. rewrite length_arange in Hidx.
  split; [done|]. split; [done|].
  split; [unfold len; by rewrite Hidx, length_arange|].
  split; [done|]. unfold wf_frame. rewrite Hcols.
  split; [done|]. split; [|done].
  split; [done|]. apply (bool_decide_unpack _). vm_compute. exact I.
Qed.

(** X13: a negative number of neighbourhoods, or a seed outside of
    [0, 2^32 - 1], makes [generate_synthetic_data] fail with a
    [ValueError], whatever the samplers would return. *)
Theorem generate_rejects_bad_arguments n_neigh seed s0 :
  n_neigh < 0 \/ ~ (0 <= seed < 2 ^ 32) ->
  exists msg s,
    generate_synthetic_data np_seeded np_uniform np_beta np_normal np_poisson
      n_neigh seed s0 = (Raise (ValueError msg), s).
Proof.
  intros Hbad. unfold generate_synthetic_data, np_random_seed, np_size.
  destruct (decide (0 <= seed < 2 ^ 32)) as [Hseed|Hseed].
  - destruct Hbad as [Hn|]; [|done]. rewrite decide_True by done. by eexists _, _.
  - by eexists _, _.
Qed.

(** X14: the function starts by seeding the generator, so for a seed
    that fits in 32 bits its outcome (the frame or the exception, and the
    state the generator is left in) does not depend on the state the
    generator was in before the call. *)
Theorem generate_reproducible n_neigh seed s0 s0' :
  0 <= seed < 2 ^ 32 ->
  generate_synthetic_data np_seeded np_uniform np_beta np_normal np_poisson
    n_neigh seed s0
  = generate_synthetic_data np_seeded np_uniform np_beta np_normal np_poisson
      n_neigh seed s0'.
Proof.
  intros Hseed. unfold generate_synthetic_data, np_random_seed.
  destruct (decide (0 <= seed < 2 ^ 32)); [reflexivity|contradiction].
Qed.

(** X15: a frame [generate_synthetic_data] returned is accepted by both
    steps of the analysis: the model is declared on it without a
    [KeyError], with one random-effect component per neighbourhood, and
    [calculate_residuals] returns for every ensemble with that many
    random-effect components. *)
Theorem generated_frame_is_accepted n_neigh seed s0 d s df w :
  generate_synthetic_data np_seeded np_uniform np_beta np_normal np_poisson
    n_neigh seed s0 = (Ok d, s) ->
  heap w !! df = Some d ->
  (exists ci co,
     build_model df w
     = (Ok (declared_model (Z.to_nat n_neigh) ci co), w)) /\
  (forall trace,
     length (neigh_eff trace) = Z.to_nat n_neigh ->
     exists w', calculate_residuals df trace w = (Ok df, w')).
Proof.
  intros (Hn & Hseed & coords & infra & counts & Hgen)%generate_ok_inv Hd.
  apply pd_DataFrame_ok in Hgen as (Hcols & Hall & Hidx).
  cbn [col_length] in Hidx. rewrite length_arange in Hidx.
  assert (len d = Z.to_nat n_neigh) as Hlen
    by (unfold len; by rewrite Hidx, length_arange).
  assert (assoc "infrastructure" (columns d) = Some (FloatCol infra)) as Hci
    by (by rewrite Hcols).
  assert (assoc "observed_demand" (columns d) = Some (IntCol counts)) as Hco
    by (by rewrite Hcols).
  assert (wf_frame d) as Hwf.
  { split; [by rewrite Hcols|]. rewrite Hcols.
    apply (bool_decide_unpack _). vm_compute. exact I. }
  split.
  - exists (FloatCol infra), (IntCol counts).
    rewrite (build_model_run _ _ _ Hd). unfold getitem.
    by rewrite Hci, Hco, Hlen.
  - intros trace Hm.
    destruct (calculate_residuals_ok df trace w d _ _ Hd Hci Hco)
      as (ll & _ & _ & Hrun); eauto using wf_frame_column.
    left. congruence.
Qed.


End SyntheticProperties.

Lemma generate_const_run :
  generate_synthetic_data Z.to_N const_uniform const_beta const_normal
    const_poisson 2 2025 0%N
  = (Ok frame_const, 2029%N).
Proof. vm_compute. reflexivity. Qed.

Lemma generated_frame_shape_witness :
  len frame_const = 2%nat /\
  (columns frame_const).*1
  = ["neighborhood"; "x"; "y"; "infrastructure"; "observed_demand"] /\
  wf_frame frame_const.
Proof.
  destruct (generated_frame_shape _ _ _ _ _ _ _ _ _ _ generate_const_run)
    as (_ & _ & Hlen & _ & Hnames & Hwf & _).
  exact (conj Hlen (conj Hnames Hwf)).
Defined.

Lemma generate_rejects_bad_arguments_witness :
  exists msg s,
    generate_synthetic_data Z.to_N const_uniform const_beta const_normal
      const_poisson (-1) 2025 0%N
    = (Raise (ValueError msg), s).
Proof.
  apply generate_rejects_bad_arguments. left. lia.
Defined.

Lemma generate_reproducible_witness :
  generate_synthetic_data Z.to_N const_uniform const_beta const_normal
    const_poisson 2 2025 7%N
  = generate_synthetic_data Z.to_N const_uniform const_beta const_normal
      const_poisson 2 2025 0%N.
Proof. apply generate_reproducible. lia. Defined.

Lemma generated_frame_is_accepted_witness :
  exists w',
    calculate_residuals 1%positive trace_ex (world_of frame_const)
    = (Ok 1%positive, w').
Proof.
  destruct (generated_frame_is_accepted _ _ _ _ _ _ _ _ _ _ 1%positive
              (world_of frame_const) generate_const_run
              (heap_world_of frame_const)) as [_ Hres].
  apply Hres. reflexivity.
Defined.

